(** * KowalskiFilterHandler: the relay between SkyPortal filters and Kowalski

    A shallow embedding of
    [extensions/skyportal/skyportal/handlers/api/kowalski_filter.py]:
    the four request handlers [get], [post], [patch] and [delete] of
    [KowalskiFilterHandler], the database lookups they make, the calls
    they issue to the remote client [kowalski.api], and the exceptions
    they let escape. *)

From Stdlib Require Import ZArith SpecFloat.
From stdpp Require Import base option list gmap strings pretty.

#[local] Set Warnings "-register-all".
#[local] Open Scope Z_scope.

(** ** Python values

    The values the handlers touch all come out of JSON documents (the
    request body, the remote response, the [altdata] column) or are
    built from integers and strings of the database rows. *)
Module Py.

Inductive value : Type :=
| VNone
| VBool (b : bool)
| VInt (z : Z)
| VFloat (x : spec_float)
| VStr (s : string)
| VList (l : list value)
| VDict (d : gmap string value).

(** Exceptions a handler can let escape. [Raised] stands for whatever
    the remote client raises (connection refused, time-out, a reply
    that is not JSON). *)
Inductive exn : Type :=
| AttributeError
| TypeError
| KeyError (k : string)
| Raised (what : string).

(** [x is None] *)
Definition is_None (v : value) : bool :=
  match v with VNone => true | _ => false end.

(** [bool(x)], which is also the test of [if x] and [not x]. *)
Definition truthy (v : value) : bool :=
  match v with
  | VNone => false
  | VBool b => b
  | VInt z => negb (z =? 0)
  | VFloat (S754_zero _) => false
  | VFloat _ => true
  | VStr EmptyString => false
  | VStr _ => true
  | VList [] => false
  | VList _ => true
  | VDict d => negb (size d =? 0)%nat
  end.

(** [x == s] for a string literal [s]. *)
Definition eq_str (v : value) (s : string) : bool :=
  match v with VStr s' => String.eqb s' s | _ => false end.

(** [d.get(k, None)] on a dict. *)
Definition dict_get (d : gmap string value) (k : string) : value :=
  default VNone (d !! k).

(** [t.count(None)] on a tuple. *)
Definition count_None (t : list value) : nat :=
  length (filter (λ v, is_None v = true) t).

(** [str(x)]: a [str] is returned as it is, [bool] and [int] print as
    Python prints them; [repr] is Python's printer of the remaining
    values (floats, lists, dicts), which the handlers leave to the
    interpreter. *)
Definition str (repr : value → string) (v : value) : string :=
  match v with
  | VStr s => s
  | VBool true => "True"
  | VBool false => "False"
  | VInt z => pretty z
  | VNone => "None"
  | _ => repr v
  end.

End Py.
Import Py.

(** ** Database rows *)

Module Group.
Record t : Type := { id : Z }.
End Group.

Module Filter.
Record t : Type := { id : Z; group_id : Z; stream_id : Z }.
End Filter.

Module Stream.
Record t : Type := { id : Z; altdata : value }.
End Stream.

Record User : Type := { accessible_groups : list Group.t }.

Record Database : Type := {
  filters : list Filter.t;
  streams : list Stream.t
}.

(** ** The remote client *)

(** One call [kowalski.api(method=..., endpoint=..., data=...)]; [data]
    is [None] when the keyword is not passed. *)
Record request : Type := {
  method : string;
  endpoint : string;
  data : option (gmap string value)
}.

Inductive api_result : Type :=
| Raises (e : exn)
| Returns (response : value).

(** ** The reply of a handler *)

Record envelope : Type := {
  env_status : string;
  env_message : option value;
  env_data : option value
}.

(** Modelled from the spec: [BaseHandler.success] and [BaseHandler.error]
    live in the base handler class, which is not part of this file.  By
    the spec every reply is an envelope
    [{status: success|error, message?: string, data?: object}]:
    [self.success(data=d)] is the success envelope carrying [d],
    [self.success()] the bare success envelope, and [self.error(m)] the
    error envelope carrying the message [m] and no data. *)
Definition success (data : option value) : envelope :=
  {| env_status := "success"; env_message := None; env_data := data |}.

Definition error (message : value) : envelope :=
  {| env_status := "error"; env_message := Some message; env_data := None |}.

(** ** Handler computations

    A handler runs against the log of remote calls issued so far, and
    either returns or lets an exception escape. *)
Definition M (A : Type) : Type := list request → list request * (exn + A).

#[global] Instance M_ret : MRet M := λ A a log, (log, inr a).

#[global] Instance M_bind : MBind M := λ A B k m log,
  match m log with
  | (log', inl e) => (log', inl e)
  | (log', inr a) => k a log'
  end.

Definition raise {A : Type} (e : exn) : M A := λ log, (log, inl e).

Definition run {A : Type} (m : M A) : list request * (exn + A) := m [].

Definition calls {A : Type} (m : M A) : list request := fst (run m).

Definition outcome {A : Type} (m : M A) : exn + A := snd (run m).

(** [v.get(k)]: only a dict has the method. *)
Definition method_get (v : value) (k : string) : M value :=
  match v with
  | VDict d => mret (dict_get d k)
  | _ => raise AttributeError
  end.

(** [v[k]] with a string key: [KeyError] on a dict without the key,
    [TypeError] on anything that is not a dict. *)
Definition subscript (v : value) (k : string) : M value :=
  match v with
  | VDict d =>
      match d !! k with
      | Some x => mret x
      | None => raise (KeyError k)
      end
  | _ => raise TypeError
  end.

(** [stream.altdata], where [stream] is the result of [.first()]. *)
Definition getattr_altdata (stream : option Stream.t) : M value :=
  match stream with
  | Some s => mret (Stream.altdata s)
  | None => raise AttributeError
  end.

Section KowalskiFilterHandler.

(** Python's printer of the values [str] does not print itself. *)
Variable repr : value → string.
(** The rows behind [DBSession()]. *)
Variable db : Database.
(** [self.current_user] *)
Variable current_user : User.
(** The module-level client [kowalski]: what [kowalski.api] does with
    a call. *)
Variable kowalski : request → api_result.

Definition kowalski_api (method : string) (endpoint : string)
    (data : option (gmap string value)) : M value :=
  λ log,
    let req := {| method := method; endpoint := endpoint; data := data |} in
    (log ++ [req],
     match kowalski req with
     | Raises e => inl e
     | Returns response => inr response
     end).

(** [[g.id for g in self.current_user.accessible_groups]] *)
Definition accessible_group_ids : list Z :=
  Group.id <$> accessible_groups current_user.

(** [DBSession().query(Filter).filter(Filter.id == filter_id,
    Filter.group_id.in_(...)).first()] *)
Definition query_filter (filter_id : Z) : option Filter.t :=
  find (λ f, (Filter.id f =? filter_id)
             && bool_decide (Filter.group_id f ∈ accessible_group_ids))
       (filters db).

(** [DBSession().query(Stream).filter(Stream.id == stream_id).first()] *)
Definition query_stream (stream_id : Z) : option Stream.t :=
  find (λ s, Stream.id s =? stream_id) (streams db).

(** The shared tail of [get], [post] and [patch]. *)
Definition relay (response : value) : M envelope :=
  data ← method_get response "data";
  status ← method_get response "status";
  message ← method_get response "message";
  if eq_str status "success"
  then mret (success (Some data))
  else mret (error message).

Definition get (filter_id : Z) : M envelope :=
  match query_filter filter_id with
  | None => mret (error (VStr "Invalid filter ID."))
  | Some f =>
      response ← kowalski_api "get" ("api/filters/" +:+ pretty filter_id) None;
      relay response
  end.

Definition post (filter_id : Z) (data : gmap string value) : M envelope :=
  let pipeline := dict_get data "pipeline" in
  if negb (truthy pipeline)
  then mret (error (VStr "Missing pipeline parameter"))
  else
    match query_filter filter_id with
    | None => mret (error (VStr "Invalid filter ID."))
    | Some f =>
        let group_id := Filter.group_id f in
        let stream := query_stream (Filter.stream_id f) in
        altdata ← getattr_altdata stream;
        catalog ← subscript altdata "collection";
        altdata ← getattr_altdata stream;
        permissions ← subscript altdata "selector";
        let post_data : gmap string value :=
          <["pipeline" := pipeline]>
            (<["permissions" := permissions]>
              (<["catalog" := catalog]>
                (<["filter_id" := VInt filter_id]>
                  (<["group_id" := VInt group_id]> ∅)))) in
        response ← kowalski_api "post" "api/filters" (Some post_data);
        relay response
    end.

(** [if x is not None: patch_data[k] = v] *)
Definition set_unless_None (x : value) (k : string) (v : value)
    (patch_data : gmap string value) : gmap string value :=
  if negb (is_None x) then <[k := v]> patch_data else patch_data.

Definition patch (filter_id : Z) (data : gmap string value) : M envelope :=
  let active := dict_get data "active" in
  let active_fid := dict_get data "active_fid" in
  let autosave := dict_get data "autosave" in
  let update_annotations := dict_get data "update_annotations" in
  if (count_None [active; active_fid; autosave; update_annotations] <? 1)%nat
  then mret (error (VStr
    "At least one of (active, active_fid, autosave, update_annotations) must be set"))
  else
    match query_filter filter_id with
    | None => mret (error (VStr "Invalid filter ID."))
    | Some f =>
        let patch_data : gmap string value := <["filter_id" := VInt filter_id]> ∅ in
        let patch_data :=
          set_unless_None active "active" (VBool (truthy active)) patch_data in
        let patch_data :=
          set_unless_None active_fid "active_fid" (VStr (str repr active_fid))
            patch_data in
        let patch_data :=
          set_unless_None autosave "autosave" (VBool (truthy autosave))
            patch_data in
        let patch_data :=
          set_unless_None update_annotations "update_annotations"
            (VBool (truthy update_annotations)) patch_data in
        response ← kowalski_api "patch" "api/filters" (Some patch_data);
        relay response
    end.

Definition delete (filter_id : Z) : M envelope :=
  match query_filter filter_id with
  | None => mret (error (VStr "Invalid filter ID."))
  | Some f =>
      response ← kowalski_api "patch" ("api/filters/" +:+ pretty filter_id) None;
      status ← method_get response "status";
      message ← method_get response "message";
      if eq_str status "success"
      then mret (success None)
      else mret (error message)
  end.

End KowalskiFilterHandler.

(** ** Vocabulary of the statements *)

Section Vocabulary.

Variable db : Database.
Variable current_user : User.

(** No row of [Filter] with this identifier belongs to a group the
    caller can access. *)
Definition inaccessible (filter_id : Z) : Prop :=
  ∀ f, f ∈ filters db → Filter.id f = filter_id →
       Filter.group_id f ∉ accessible_group_ids current_user.

(** The stream of a filter has both keys [post] reads. *)
Definition stream_ready (f : Filter.t) (catalog permissions : value) : Prop :=
  ∃ s d, query_stream db (Filter.stream_id f) = Some s
         ∧ Stream.altdata s = VDict d
         ∧ d !! "collection" = Some catalog
         ∧ d !! "selector" = Some permissions.

(** The stream of a filter cannot serve [post]: it has no row, or its
    [altdata] is not an object with both keys. *)
Definition stream_unusable (f : Filter.t) : Prop :=
  query_stream db (Filter.stream_id f) = None
  ∨ ∃ s, query_stream db (Filter.stream_id f) = Some s
         ∧ ∀ d, Stream.altdata s = VDict d →
                d !! "collection" = None ∨ d !! "selector" = None.

End Vocabulary.

(** The four optional fields of the body of [patch]. *)
Definition optional_fields : list string :=
  ["active"; "active_fid"; "autosave"; "update_annotations"].

(** The value a body supplies for a field.  A field that is missing and
    a field that holds JSON [null] both read as [None] through
    [data.get(k, None)], so neither is supplied. *)
Definition supplied (body : gmap string value) (k : string) : option value :=
  match body !! k with
  | None | Some VNone => None
  | Some v => Some v
  end.

(** How many of the optional fields a body supplies. *)
Definition supplied_count (body : gmap string value) : nat :=
  length (filter (λ k, is_Some (supplied body k)) optional_fields).

(** What the remote client makes of a call, seen from the handler: the
    exception that escapes, if any. *)
Definition remote_fault (r : api_result) : option exn :=
  match r with
  | Raises e => Some e
  | Returns (VDict _) => None
  | Returns _ => Some AttributeError
  end.

(** ** Concrete inputs used by the examples below *)

Definition repr0 : value → string := λ _, "?".

(** Filter 7 of group 1, on stream 3, which carries the ZTF collection. *)
Definition filter7 : Filter.t :=
  {| Filter.id := 7; Filter.group_id := 1; Filter.stream_id := 3 |}.

Definition altdata3 : gmap string value :=
  {[ "collection" := VStr "ZTF_alerts"; "selector" := VList [VInt 1; VInt 2] ]}.

Definition stream3 : Stream.t :=
  {| Stream.id := 3; Stream.altdata := VDict altdata3 |}.

Definition db0 : Database :=
  {| filters := [filter7]; streams := [stream3] |}.

(** The same filter on a stream that has no row. *)
Definition db_no_stream : Database :=
  {| filters := filters db0; streams := [] |}.

(** A member of group 1, and a member of group 2 only. *)
Definition alice : User := {| accessible_groups := [ {| Group.id := 1 |} ] |}.
Definition bob : User := {| accessible_groups := [ {| Group.id := 2 |} ] |}.

(** A remote that accepts everything, one that reports an error, and one
    that cannot be reached. *)
Definition answer_ok : gmap string value :=
  {[ "status" := VStr "success"; "data" := VDict {[ "fid" := VStr "abc123" ]} ]}.
Definition answer_error : gmap string value :=
  {[ "status" := VStr "error"; "message" := VStr "not found" ]}.

Definition remote_ok : request → api_result := λ _, Returns (VDict answer_ok).
Definition remote_error : request → api_result := λ _, Returns (VDict answer_error).
Definition remote_down : request → api_result :=
  λ _, Raises (Raised "ConnectionError").

Definition pipeline0 : value := VList [ VDict {[ "$match" := VDict ∅ ]} ].

(** Filter 7 on a stream whose [altdata] has the collection only, and
    on a stream whose [altdata] column is null. *)
Definition db_no_selector : Database :=
  {| filters := [filter7];
     streams := [ {| Stream.id := 3;
                     Stream.altdata := VDict {[ "collection" := VStr "ZTF_alerts" ]} |} ] |}.

Definition db_null_altdata : Database :=
  {| filters := [filter7];
     streams := [ {| Stream.id := 3; Stream.altdata := VNone |} ] |}.

(** A body that supplies all four optional fields of [patch]. *)
Definition body_all_four : gmap string value :=
  {[ "active" := VBool true; "active_fid" := VStr "abc123";
     "autosave" := VBool false; "update_annotations" := VBool true ]}.

(** ** Lookups *)

Section Lookups.

Variable db : Database.
Variable current_user : User.

#[local] Abbreviation inaccessible := (inaccessible db current_user).

Lemma query_filter_None (filter_id : Z) :
  inaccessible filter_id ↔ query_filter db current_user filter_id = None.
Proof.
  unfold inaccessible, query_filter. split.
  - intros Hno. induction (filters db) as [|f fs IH]; [done|].
    simpl. rewrite IH.
    + destruct (Z.eqb_spec (Filter.id f) filter_id) as [Heq|Hne]; [|done].
      simpl. rewrite bool_decide_eq_false_2; [done|].
      apply Hno; [left | done].
    + intros f' Hin. apply Hno. by right.
  - intros Hfind f Hin Hid Hgrp.
    apply list_elem_of_In in Hin.
    pose proof (find_none _ _ Hfind f Hin) as Hf. simpl in Hf.
    apply andb_false_iff in Hf as [Hf|Hf].
    + apply Z.eqb_neq in Hf. done.
    + apply bool_decide_eq_false in Hf. done.
Qed.

Lemma query_filter_Some (filter_id : Z) (f : Filter.t) :
  query_filter db current_user filter_id = Some f →
  f ∈ filters db ∧ Filter.id f = filter_id
  ∧ Filter.group_id f ∈ accessible_group_ids current_user.
Proof.
  unfold query_filter. intros Hfind.
  apply find_some in Hfind as [Hin Hf].
  apply andb_true_iff in Hf as [Hid Hgrp].
  apply Z.eqb_eq in Hid. apply bool_decide_eq_true in Hgrp.
  split; [by apply list_elem_of_In | done].
Qed.

End Lookups.

(** ** Running a handler *)

Lemma M_bind_ret {A B : Type} (a : A) (k : A → M B) : mret a ≫= k = k a.
Proof. reflexivity. Qed.

Lemma relay_dict (r : gmap string value) (log : list request) :
  relay (VDict r) log =
  (log, inr (if eq_str (dict_get r "status") "success"
             then success (Some (dict_get r "data"))
             else error (dict_get r "message"))).
Proof.
  unfold relay, method_get, mbind, M_bind, mret, M_ret.
  by destruct (eq_str _ _).
Qed.

(** [status == "success"] holds for the string [success] only. *)
Lemma eq_str_true (v : value) (s : string) : eq_str v s = true ↔ v = VStr s.
Proof.
  destruct v; simpl; try (split; [done | discriminate]).
  rewrite String.eqb_eq. split; [by intros -> | by intros [= ->]].
Qed.

(** ** What the body of a request supplies *)

Lemma supplied_dict_get (body : gmap string value) (k : string) :
  supplied body k = if is_None (dict_get body k) then None else Some (dict_get body k).
Proof.
  unfold supplied, dict_get. destruct (body !! k) as [v|]; [|done].
  by destruct v.
Qed.

Lemma count_None_supplied (body : gmap string value) :
  count_None (dict_get body <$> optional_fields) = (4 - supplied_count body)%nat.
Proof.
  unfold count_None, supplied_count, optional_fields. simpl.
  rewrite !filter_cons, !filter_nil.
  rewrite !supplied_dict_get.
  destruct (is_None (dict_get body "active"));
    destruct (is_None (dict_get body "active_fid"));
    destruct (is_None (dict_get body "autosave"));
    destruct (is_None (dict_get body "update_annotations"));
    repeat case_decide; simpl; try done;
    repeat match goal with
           | H : ¬ is_Some (Some _) |- _ => by destruct H
           | H : is_Some None |- _ => by destruct H as [? ?]
           | H : true ≠ true |- _ => by destruct H
           | H : false = true |- _ => discriminate H
           end.
Qed.

(** ** The handlers, case by case *)

Section Cases.

Variable repr : value → string.
Variable db : Database.
Variable current_user : User.
Variable kowalski : request → api_result.

#[local] Abbreviation get := (get db current_user kowalski).
#[local] Abbreviation post := (post db current_user kowalski).
#[local] Abbreviation patch := (patch repr db current_user kowalski).
#[local] Abbreviation delete := (delete db current_user kowalski).
#[local] Abbreviation query_filter := (query_filter db current_user).
#[local] Abbreviation query_stream := (query_stream db).
#[local] Abbreviation stream_ready := (stream_ready db).

Lemma post_falsy_pipeline (filter_id : Z) (body : gmap string value) :
  truthy (dict_get body "pipeline") = false →
  run (post filter_id body) = ([], inr (error (VStr "Missing pipeline parameter"))).
Proof. intros Hp. unfold post. by rewrite Hp. Qed.

Lemma post_no_filter (filter_id : Z) (body : gmap string value) :
  truthy (dict_get body "pipeline") = true →
  query_filter filter_id = None →
  run (post filter_id body) = ([], inr (error (VStr "Invalid filter ID."))).
Proof. intros Hp Hq. unfold post. by rewrite Hp, Hq. Qed.

Lemma get_no_filter (filter_id : Z) :
  query_filter filter_id = None →
  run (get filter_id) = ([], inr (error (VStr "Invalid filter ID."))).
Proof. intros Hq. unfold get. by rewrite Hq. Qed.

Lemma delete_no_filter (filter_id : Z) :
  query_filter filter_id = None →
  run (delete filter_id) = ([], inr (error (VStr "Invalid filter ID."))).
Proof. intros Hq. unfold delete. by rewrite Hq. Qed.

(** The test of [patch] on the body, as the code evaluates it. *)
Lemma patch_test (body : gmap string value) :
  (count_None [dict_get body "active"; dict_get body "active_fid";
               dict_get body "autosave"; dict_get body "update_annotations"] <? 1)%nat
  = bool_decide (supplied_count body = 4%nat).
Proof.
  change [dict_get body "active"; dict_get body "active_fid";
          dict_get body "autosave"; dict_get body "update_annotations"]
    with (dict_get body <$> optional_fields).
  rewrite count_None_supplied.
  assert (supplied_count body ≤ 4)%nat as Hle.
  { unfold supplied_count. etrans; [apply length_filter|]. done. }
  case_bool_decide as Hc.
  - rewrite Hc. done.
  - apply Nat.ltb_ge. lia.
Qed.

Lemma patch_rejected (filter_id : Z) (body : gmap string value) :
  supplied_count body = 4%nat →
  run (patch filter_id body) = ([], inr (error (VStr
    "At least one of (active, active_fid, autosave, update_annotations) must be set"))).
Proof.
  intros Hc. unfold patch. rewrite patch_test, bool_decide_eq_true_2; done.
Qed.

Lemma patch_no_filter (filter_id : Z) (body : gmap string value) :
  supplied_count body ≠ 4%nat →
  query_filter filter_id = None →
  run (patch filter_id body) = ([], inr (error (VStr "Invalid filter ID."))).
Proof.
  intros Hc Hq. unfold patch.
  rewrite patch_test, bool_decide_eq_false_2; [|done]. by rewrite Hq.
Qed.

(** A call to the remote client adds one entry to the log, whatever
    comes back. *)
Lemma run_kowalski_api {A : Type} (m e : string) (d : option (gmap string value))
    (k : value → M A) :
  run (kowalski_api kowalski m e d ≫= k) =
  let req := {| method := m; endpoint := e; data := d |} in
  match kowalski req with
  | Raises x => ([req], inl x)
  | Returns response => k response [req]
  end.
Proof.
  unfold run, mbind, M_bind, kowalski_api. simpl. by destruct (kowalski _).
Qed.

Lemma relay_log (v : value) (log : list request) : fst (relay v log) = log.
Proof. destruct v; try done. by rewrite relay_dict. Qed.

Lemma calls_api_relay (m e : string) (d : option (gmap string value)) :
  calls (kowalski_api kowalski m e d ≫= relay)
  = [ {| method := m; endpoint := e; data := d |} ].
Proof.
  unfold calls. rewrite run_kowalski_api. simpl.
  destruct (kowalski _); [done | apply relay_log].
Qed.

Lemma outcome_api_relay_fault (m e : string) (d : option (gmap string value)) (x : exn) :
  remote_fault (kowalski {| method := m; endpoint := e; data := d |}) = Some x →
  outcome (kowalski_api kowalski m e d ≫= relay) = inl x.
Proof.
  unfold outcome. rewrite run_kowalski_api. simpl.
  destruct (kowalski _) as [y|v]; simpl.
  - by intros [= ->].
  - destruct v; try done; by intros [= <-].
Qed.

Lemma get_filter (filter_id : Z) (f : Filter.t) :
  query_filter filter_id = Some f →
  get filter_id =
  kowalski_api kowalski "get" ("api/filters/" +:+ pretty filter_id) None ≫= relay.
Proof. intros Hq. unfold get. by rewrite Hq. Qed.

Lemma post_filter (filter_id : Z) (body : gmap string value) (f : Filter.t)
    (catalog permissions : value) :
  truthy (dict_get body "pipeline") = true →
  query_filter filter_id = Some f →
  stream_ready f catalog permissions →
  post filter_id body =
  kowalski_api kowalski "post" "api/filters"
    (Some (<["pipeline" := dict_get body "pipeline"]>
            (<["permissions" := permissions]>
              (<["catalog" := catalog]>
                (<["filter_id" := VInt filter_id]>
                  (<["group_id" := VInt (Filter.group_id f)]> ∅))))))
  ≫= relay.
Proof.
  intros Hp Hq (s & d & Hs & Ha & Hc & Hsel).
  unfold post. rewrite Hp, Hq. simpl.
  rewrite Hs. simpl. rewrite Ha.
  rewrite !M_bind_ret. simpl. rewrite Hc, !M_bind_ret. simpl.
  by rewrite Hsel, M_bind_ret.
Qed.

Lemma patch_filter (filter_id : Z) (body : gmap string value) (f : Filter.t) :
  supplied_count body ≠ 4%nat →
  query_filter filter_id = Some f →
  ∃ payload : gmap string value,
    patch filter_id body
    = kowalski_api kowalski "patch" "api/filters" (Some payload) ≫= relay
    ∧ payload !! "filter_id" = Some (VInt filter_id)
    ∧ payload !! "active" = VBool ∘ truthy <$> supplied body "active"
    ∧ payload !! "active_fid" = VStr ∘ str repr <$> supplied body "active_fid"
    ∧ payload !! "autosave" = VBool ∘ truthy <$> supplied body "autosave"
    ∧ payload !! "update_annotations"
      = VBool ∘ truthy <$> supplied body "update_annotations"
    ∧ (∀ k, k ≠ "filter_id" → k ∉ optional_fields → payload !! k = None).
Proof.
  intros Hc Hq. unfold patch.
  rewrite patch_test, bool_decide_eq_false_2; [|done]. rewrite Hq.
  eexists. split; [reflexivity|].
  rewrite !supplied_dict_get. unfold set_unless_None, optional_fields.
  destruct (is_None (dict_get body "active"));
    destruct (is_None (dict_get body "active_fid"));
    destruct (is_None (dict_get body "autosave"));
    destruct (is_None (dict_get body "update_annotations")); simpl;
    (repeat split; [by simplify_map_eq .. |]);
    intros k Hk Hopt;
    repeat (rewrite lookup_insert_ne; [| intros <-; set_solver ]);
    apply lookup_empty.
Qed.

End Cases.

(** ** The behaviour of the four operations *)

Section Operations.

Variable repr : value → string.
Variable db : Database.
Variable current_user : User.
Variable kowalski : request → api_result.

#[local] Abbreviation get := (get db current_user kowalski).
#[local] Abbreviation post := (post db current_user kowalski).
#[local] Abbreviation patch := (patch repr db current_user kowalski).
#[local] Abbreviation delete := (delete db current_user kowalski).
#[local] Abbreviation query_filter := (query_filter db current_user).
#[local] Abbreviation query_stream := (query_stream db).
#[local] Abbreviation inaccessible := (inaccessible db current_user).
#[local] Abbreviation stream_ready := (stream_ready db).
#[local] Abbreviation stream_unusable := (stream_unusable db).

(** C1, as the code has it.  For a filter identifier that resolves to no
    Filter row of a group the caller can access, no operation calls the
    remote API and every operation replies with an error envelope, for
    every request body.  The message is "Invalid filter ID." for Fetch
    and Deactivate, for Create when the body carries a non-empty
    pipeline, and for Update when the body supplies one, two or three of
    the optional fields: Create and Update validate the body before they
    look the filter up. *)
Theorem inaccessible_filter_refused (filter_id : Z) (body : gmap string value) :
  inaccessible filter_id →
  run (get filter_id) = ([], inr (error (VStr "Invalid filter ID.")))
  ∧ run (delete filter_id) = ([], inr (error (VStr "Invalid filter ID.")))
  ∧ (truthy (dict_get body "pipeline") = true →
     run (post filter_id body) = ([], inr (error (VStr "Invalid filter ID."))))
  ∧ ((1 ≤ supplied_count body ≤ 3)%nat →
     run (patch filter_id body) = ([], inr (error (VStr "Invalid filter ID."))))
  ∧ (∃ m, run (post filter_id body) = ([], inr (error m)))
  ∧ (∃ m, run (patch filter_id body) = ([], inr (error m))).
Proof.
  intros Hno. apply query_filter_None in Hno.
  split; [by apply get_no_filter|].
  split; [by apply delete_no_filter|].
  split; [intros Hp; by apply post_no_filter|].
  split; [intros Hc; apply patch_no_filter; [lia | done]|].
  split.
  - destruct (truthy (dict_get body "pipeline")) eqn:Hp.
    + eexists. by apply post_no_filter.
    + eexists. by apply post_falsy_pipeline.
  - destruct (decide (supplied_count body = 4%nat)) as [Hc|Hc].
    + eexists. by apply patch_rejected.
    + eexists. by apply patch_no_filter.
Qed.

(** C2, evaluated on the code.  When the caller can access the filter and
    the body has none of the four optional fields, Update does not stop
    at the validation error: it issues the remote PATCH to api/filters
    with a payload that holds the filter identifier alone. *)
Theorem patch_nothing_supplied_forwarded (filter_id : Z) (body : gmap string value)
    (f : Filter.t) :
  query_filter filter_id = Some f →
  (∀ k, k ∈ optional_fields → body !! k = None) →
  calls (patch filter_id body)
  = [ {| method := "patch"; endpoint := "api/filters";
         data := Some {[ "filter_id" := VInt filter_id ]} |} ].
Proof.
  intros Hq Habsent.
  assert (∀ k, k ∈ optional_fields → dict_get body k = VNone) as Hget.
  { intros k Hk. unfold dict_get. by rewrite Habsent. }
  unfold patch.
  rewrite !Hget by (unfold optional_fields; set_solver).
  simpl. rewrite Hq. unfold set_unless_None. simpl.
  apply calls_api_relay.
Qed.

(** C3, as the code has it.  No operation catches a failure of the remote
    call.  Once a request has passed the local checks and the handler has
    called the remote client, an exception the client raises escapes from
    the handler unchanged, and a response that is not a JSON object makes
    the handler raise AttributeError: in both cases the handler produces
    no envelope. *)
Theorem remote_failure_escapes (filter_id : Z) (post_body patch_body : gmap string value)
    (f : Filter.t) (catalog permissions : value) (r : api_result) (e : exn) :
  query_filter filter_id = Some f →
  truthy (dict_get post_body "pipeline") = true →
  stream_ready f catalog permissions →
  supplied_count patch_body ≠ 4%nat →
  (∀ req, kowalski req = r) →
  remote_fault r = Some e →
  outcome (get filter_id) = inl e
  ∧ outcome (post filter_id post_body) = inl e
  ∧ outcome (patch filter_id patch_body) = inl e
  ∧ outcome (delete filter_id) = inl e.
Proof.
  intros Hq Hp Hs Hc Hk Hr.
  split; [|split; [|split]].
  - rewrite (get_filter _ _ _ _ f Hq).
    apply outcome_api_relay_fault. by rewrite Hk.
  - rewrite (post_filter _ _ _ _ _ f catalog permissions Hp Hq Hs).
    apply outcome_api_relay_fault. by rewrite Hk.
  - destruct (patch_filter repr _ _ kowalski _ _ f Hc Hq) as (payload & -> & _).
    apply outcome_api_relay_fault. by rewrite Hk.
  - unfold delete. rewrite Hq. unfold outcome.
    rewrite run_kowalski_api. simpl. rewrite Hk.
    destruct r as [x|v]; simpl in *.
    + by injection Hr as ->.
    + destruct v; try done; by injection Hr as <-.
Qed.


(** C5.  A Create request whose body has no pipeline, or an empty one
    (any value Python takes for false: null, [], {}, the empty string, 0,
    false), gets the validation error "Missing pipeline parameter" and
    no remote call is made, whatever the filter identifier. *)
Theorem post_missing_pipeline (filter_id : Z) (body : gmap string value) :
  truthy (dict_get body "pipeline") = false →
  run (post filter_id body) = ([], inr (error (VStr "Missing pipeline parameter"))).
Proof. apply post_falsy_pipeline. Qed.

(** X13.  For an authorized Update request that the handler's own test
    lets through, that is, whose body does not supply all four optional
    fields, the handler issues one remote call, a PATCH to api/filters,
    whose payload holds filter_id and, of the four optional fields,
    exactly those the body supplies: active, autosave and
    update_annotations as booleans, active_fid as a string.  No other
    key appears. *)
Theorem patch_payload (filter_id : Z) (body : gmap string value) (f : Filter.t) :
  query_filter filter_id = Some f →
  (count_None [dict_get body "active"; dict_get body "active_fid";
               dict_get body "autosave"; dict_get body "update_annotations"] <? 1)%nat
  = false →
  ∃ payload : gmap string value,
    calls (patch filter_id body)
    = [ {| method := "patch"; endpoint := "api/filters"; data := Some payload |} ]
    ∧ payload !! "filter_id" = Some (VInt filter_id)
    ∧ payload !! "active" = VBool ∘ truthy <$> supplied body "active"
    ∧ payload !! "active_fid" = VStr ∘ str repr <$> supplied body "active_fid"
    ∧ payload !! "autosave" = VBool ∘ truthy <$> supplied body "autosave"
    ∧ payload !! "update_annotations"
      = VBool ∘ truthy <$> supplied body "update_annotations"
    ∧ (∀ k, k ≠ "filter_id" → k ∉ optional_fields → payload !! k = None).
Proof.
  intros Hq Htest. rewrite patch_test in Htest.
  apply bool_decide_eq_false in Htest.
  destruct (patch_filter repr _ _ kowalski _ _ f Htest Hq) as (payload & -> & Hpayload).
  exists payload. split; [apply calls_api_relay | exact Hpayload].
Qed.

(** C6, evaluated on the code.  An authorized Update request whose body
    supplies all four optional fields passes the presence check (at
    least one field is supplied), yet the handler sends no payload at
    all: it makes no remote call and replies with the error "At least
    one of (active, active_fid, autosave, update_annotations) must be
    set". *)
Theorem patch_all_supplied_not_forwarded (filter_id : Z) (body : gmap string value)
    (f : Filter.t) :
  query_filter filter_id = Some f →
  supplied_count body = 4%nat →
  calls (patch filter_id body) = []
  ∧ outcome (patch filter_id body) = inr (error (VStr
      "At least one of (active, active_fid, autosave, update_annotations) must be set")).
Proof.
  intros _ Hc. unfold calls, outcome.
  by rewrite (patch_rejected repr db current_user kowalski filter_id body Hc).
Qed.

(** C7.  For an authorized Fetch request to which the remote API answers
    with a JSON object: when the status of the answer is "success" the
    reply is a success envelope whose data is the data of the answer
    (None when the answer has none); for every other status, and for an
    answer without status, the reply is an error envelope whose message
    is the message of the answer, and it carries no data. *)
Theorem get_relays (filter_id : Z) (f : Filter.t) (r : gmap string value) :
  query_filter filter_id = Some f →
  kowalski {| method := "get"; endpoint := "api/filters/" +:+ pretty filter_id;
              data := None |} = Returns (VDict r) →
  ∃ reply : envelope,
    outcome (get filter_id) = inr reply
    ∧ (r !! "status" = Some (VStr "success") →
       env_status reply = "success" ∧ env_data reply = Some (dict_get r "data"))
    ∧ (r !! "status" ≠ Some (VStr "success") →
       env_status reply = "error"
       ∧ env_message reply = Some (dict_get r "message")
       ∧ env_data reply = None).
Proof.
  intros Hq Hk. rewrite (get_filter _ _ _ _ f Hq).
  unfold outcome. rewrite run_kowalski_api. simpl. rewrite Hk, relay_dict. simpl.
  eexists. split; [reflexivity|].
  destruct (eq_str (dict_get r "status") "success") eqn:Hs.
  - split; [done|]. intros Hne. destruct Hne.
    apply eq_str_true in Hs. unfold dict_get in Hs.
    destruct (r !! "status"); simpl in Hs; [by rewrite Hs | done].
  - split; [|done]. intros Hst. unfold dict_get in Hs. by rewrite Hst in Hs.
Qed.

(** C8.  An authorized Deactivate request issues exactly one remote call,
    a PATCH to api/filters/{filter_id} without a body.  When the remote
    API answers with a JSON object of status "success" the reply is the
    bare success envelope, without data; for any other answer that is a
    JSON object the reply is an error envelope with the message of the
    answer. *)
Theorem delete_relays (filter_id : Z) (f : Filter.t) :
  query_filter filter_id = Some f →
  calls (delete filter_id)
  = [ {| method := "patch"; endpoint := "api/filters/" +:+ pretty filter_id;
         data := None |} ]
  ∧ ∀ r : gmap string value,
      kowalski {| method := "patch"; endpoint := "api/filters/" +:+ pretty filter_id;
                  data := None |} = Returns (VDict r) →
      ∃ reply : envelope,
        outcome (delete filter_id) = inr reply
        ∧ (r !! "status" = Some (VStr "success") →
           env_status reply = "success" ∧ env_data reply = None)
        ∧ (r !! "status" ≠ Some (VStr "success") →
           env_status reply = "error"
           ∧ env_message reply = Some (dict_get r "message")).
Proof.
  intros Hq. unfold delete, calls, outcome. rewrite Hq, run_kowalski_api. simpl.
  split.
  - destruct (kowalski _) as [e|v]; [done|].
    destruct v; try done. unfold method_get.
    rewrite !M_bind_ret. by destruct (eq_str _ _).
  - intros r ->. unfold method_get. rewrite !M_bind_ret.
    destruct (eq_str (dict_get r "status") "success") eqn:Hs; simpl.
    + eexists. split; [reflexivity|]. split; [done|].
      intros Hne. destruct Hne.
      apply eq_str_true in Hs. unfold dict_get in Hs.
      destruct (r !! "status"); simpl in Hs; [by rewrite Hs | done].
    + eexists. split; [reflexivity|]. split; [|done].
      intros Hst. unfold dict_get in Hs. by rewrite Hst in Hs.
Qed.

(** C9.  Create tests the pipeline before it looks the filter up: for a
    filter identifier the caller cannot access, a request whose pipeline
    is missing or empty gets "Missing pipeline parameter", not
    "Invalid filter ID.", and no remote call is made. *)
Theorem post_validates_before_lookup (filter_id : Z) (body : gmap string value) :
  inaccessible filter_id →
  truthy (dict_get body "pipeline") = false →
  run (post filter_id body) = ([], inr (error (VStr "Missing pipeline parameter")))
  ∧ outcome (post filter_id body) ≠ inr (error (VStr "Invalid filter ID.")).
Proof.
  intros _ Hp. unfold outcome.
  rewrite (post_falsy_pipeline _ _ _ _ _ Hp). split; [done|].
  simpl. discriminate.
Qed.

(** C10, as the code has it.  Create reads the stream and its altdata
    without a guard, once the pipeline has passed its test: for an
    authorized request with a non-empty pipeline whose filter has no
    stream row, or whose stream's altdata lacks "collection" or
    "selector", an exception escapes from the handler (AttributeError,
    TypeError or KeyError), no envelope is returned, and no remote call
    is made. *)
Theorem post_unguarded_stream (filter_id : Z) (body : gmap string value)
    (f : Filter.t) :
  truthy (dict_get body "pipeline") = true →
  query_filter filter_id = Some f →
  stream_unusable f →
  ∃ e : exn,
    e ∈ [AttributeError; TypeError; KeyError "collection"; KeyError "selector"]
    ∧ run (post filter_id body) = ([], inl e).
Proof.
  clear repr. intros Hp Hq Hs. unfold post. rewrite Hp, Hq. simpl.
  destruct Hs as [-> | (s & -> & Hd)]; simpl.
  - exists AttributeError. split; [set_solver | done].
  - rewrite M_bind_ret.
    destruct (Stream.altdata s) as [| | | | | |d] eqn:Ha; simpl;
      try (exists TypeError; split; [set_solver | done]).
    destruct (d !! "collection") as [c|] eqn:Hc.
    + destruct (Hd d eq_refl) as [Hd'|Hd']; [congruence|].
      rewrite !M_bind_ret. simpl. rewrite Hd'.
      exists (KeyError "selector"). split; [set_solver | done].
    + exists (KeyError "collection"). split; [set_solver | done].
Qed.

End Operations.

(** ** The theorems at concrete requests *)

Lemma bob_cannot_access_7 : inaccessible db0 bob 7.
Proof. by apply query_filter_None. Qed.

Lemma stream3_ready :
  stream_ready db0 filter7 (VStr "ZTF_alerts") (VList [VInt 1; VInt 2]).
Proof. exists stream3, altdata3. by split_and!. Qed.

(** Bob, who is not in group 1, is refused filter 7. *)
Lemma inaccessible_filter_refused_witness :
  inaccessible db0 bob 7
  ∧ run (get db0 bob remote_ok 7) = ([], inr (error (VStr "Invalid filter ID.")))
  ∧ run (delete db0 bob remote_ok 7) = ([], inr (error (VStr "Invalid filter ID.")))
  ∧ run (post db0 bob remote_ok 7 {[ "pipeline" := pipeline0 ]})
    = ([], inr (error (VStr "Invalid filter ID.")))
  ∧ run (patch repr0 db0 bob remote_ok 7 {[ "active" := VBool true ]})
    = ([], inr (error (VStr "Invalid filter ID."))).
Proof.
  split; [exact bob_cannot_access_7|].
  pose proof (inaccessible_filter_refused repr0 db0 bob remote_ok 7
                {[ "pipeline" := pipeline0 ]} bob_cannot_access_7)
    as (Hget & Hdelete & Hpost & _).
  pose proof (inaccessible_filter_refused repr0 db0 bob remote_ok 7
                {[ "active" := VBool true ]} bob_cannot_access_7)
    as (_ & _ & _ & Hpatch & _).
  split_and!; [exact Hget | exact Hdelete | by apply Hpost |].
  apply Hpatch. vm_compute. lia.
Defined.

(** Create, asked by Bob for filter 7 without a pipeline, does not answer
    "Invalid filter ID.". *)
Lemma inaccessible_create_counterexample :
  ¬ (inaccessible db0 bob 7 →
     outcome (post db0 bob remote_ok 7 ∅) = inr (error (VStr "Invalid filter ID."))).
Proof. intros H. specialize (H bob_cannot_access_7). discriminate H. Qed.

(** Alice sends an empty body for her filter 7: the PATCH goes out. *)
Lemma patch_nothing_supplied_forwarded_witness :
  query_filter db0 alice 7 = Some filter7
  ∧ calls (patch repr0 db0 alice remote_ok 7 ∅)
    = [ {| method := "patch"; endpoint := "api/filters";
           data := Some {[ "filter_id" := VInt 7 ]} |} ].
Proof.
  split; [reflexivity|].
  apply (patch_nothing_supplied_forwarded repr0 db0 alice remote_ok 7 ∅ filter7);
    [reflexivity | intros k _; apply lookup_empty].
Defined.

(** With the remote down, Fetch of an accessible filter yields no
    envelope at all. *)
Lemma remote_down_counterexample :
  ¬ ∃ reply : envelope,
      outcome (get db0 alice remote_down 7) = inr reply
      ∧ env_status reply = "error".
Proof. intros (reply & H & _). discriminate H. Qed.

Lemma remote_failure_escapes_witness :
  outcome (get db0 alice remote_down 7) = inl (Raised "ConnectionError")
  ∧ outcome (post db0 alice remote_down 7 {[ "pipeline" := pipeline0 ]})
    = inl (Raised "ConnectionError")
  ∧ outcome (patch repr0 db0 alice remote_down 7 {[ "active" := VBool true ]})
    = inl (Raised "ConnectionError")
  ∧ outcome (delete db0 alice remote_down 7) = inl (Raised "ConnectionError").
Proof.
  apply (remote_failure_escapes repr0 db0 alice remote_down 7
           {[ "pipeline" := pipeline0 ]} {[ "active" := VBool true ]}
           filter7 (VStr "ZTF_alerts") (VList [VInt 1; VInt 2])
           (Raises (Raised "ConnectionError")) (Raised "ConnectionError")).
  - reflexivity.
  - reflexivity.
  - exact stream3_ready.
  - vm_compute. lia.
  - intros req. reflexivity.
  - reflexivity.
Defined.


(** A body without pipeline and a body with an empty pipeline. *)
Lemma post_missing_pipeline_witness :
  run (post db0 alice remote_ok 7 ∅)
  = ([], inr (error (VStr "Missing pipeline parameter")))
  ∧ run (post db0 alice remote_ok 7 {[ "pipeline" := VList [] ]})
    = ([], inr (error (VStr "Missing pipeline parameter"))).
Proof.
  split.
  - apply (post_missing_pipeline db0 alice remote_ok 7 ∅). reflexivity.
  - apply (post_missing_pipeline db0 alice remote_ok 7 {[ "pipeline" := VList [] ]}).
    reflexivity.
Defined.

(** Alice switches filter 7 on: the payload holds filter_id and active. *)
Lemma patch_payload_witness :
  ∃ payload : gmap string value,
    calls (patch repr0 db0 alice remote_ok 7 {[ "active" := VInt 1 ]})
    = [ {| method := "patch"; endpoint := "api/filters"; data := Some payload |} ]
    ∧ payload !! "filter_id" = Some (VInt 7)
    ∧ payload !! "active" = Some (VBool true)
    ∧ payload !! "active_fid" = None
    ∧ payload !! "autosave" = None
    ∧ payload !! "update_annotations" = None
    ∧ (∀ k, k ≠ "filter_id" → k ∉ optional_fields → payload !! k = None).
Proof.
  exact (patch_payload repr0 db0 alice remote_ok 7 {[ "active" := VInt 1 ]} filter7
           eq_refl eq_refl).
Defined.

(** The remote answers {status: "error", message: "not found"}. *)
Lemma get_relays_witness :
  ∃ reply : envelope,
    outcome (get db0 alice remote_error 7) = inr reply
    ∧ (answer_error !! "status" = Some (VStr "success") →
       env_status reply = "success"
       ∧ env_data reply = Some (dict_get answer_error "data"))
    ∧ (answer_error !! "status" ≠ Some (VStr "success") →
       env_status reply = "error"
       ∧ env_message reply = Some (dict_get answer_error "message")
       ∧ env_data reply = None).
Proof.
  exact (get_relays db0 alice remote_error 7 filter7 answer_error eq_refl eq_refl).
Defined.

Lemma delete_relays_witness :
  calls (delete db0 alice remote_ok 7)
  = [ {| method := "patch"; endpoint := "api/filters/7"; data := None |} ]
  ∧ ∃ reply : envelope,
      outcome (delete db0 alice remote_ok 7) = inr reply
      ∧ env_status reply = "success" ∧ env_data reply = None.
Proof.
  destruct (delete_relays db0 alice remote_ok 7 filter7 eq_refl) as [Hcalls Hreply].
  split; [exact Hcalls|].
  destruct (Hreply answer_ok eq_refl) as (reply & Hout & Hok & _).
  exists reply. split; [exact Hout | by apply Hok].
Defined.

Lemma post_validates_before_lookup_witness :
  inaccessible db0 bob 7
  ∧ run (post db0 bob remote_ok 7 ∅)
    = ([], inr (error (VStr "Missing pipeline parameter")))
  ∧ outcome (post db0 bob remote_ok 7 ∅) ≠ inr (error (VStr "Invalid filter ID.")).
Proof.
  split; [exact bob_cannot_access_7|].
  apply (post_validates_before_lookup db0 bob remote_ok 7 ∅);
    [exact bob_cannot_access_7 | reflexivity].
Defined.

(** Alice sends all four fields for her filter 7: nothing goes out. *)
Lemma patch_all_supplied_not_forwarded_witness :
  query_filter db0 alice 7 = Some filter7
  ∧ supplied_count body_all_four = 4%nat
  ∧ calls (patch repr0 db0 alice remote_ok 7 body_all_four) = []
  ∧ outcome (patch repr0 db0 alice remote_ok 7 body_all_four) = inr (error (VStr
      "At least one of (active, active_fid, autosave, update_annotations) must be set")).
Proof.
  split; [reflexivity|]. split; [reflexivity|].
  apply (patch_all_supplied_not_forwarded repr0 db0 alice remote_ok 7
           body_all_four filter7); reflexivity.
Defined.

(** Alice's filter 7 has no stream row, and she sends no pipeline: Create
    answers with an envelope and raises nothing. *)
Lemma post_unguarded_stream_counterexample :
  ¬ (query_filter db_no_stream alice 7 = Some filter7 →
     query_stream db_no_stream (Filter.stream_id filter7) = None →
     ∃ e : exn, outcome (post db_no_stream alice remote_ok 7 ∅) = inl e).
Proof. intros H. destruct (H eq_refl eq_refl) as [e He]. discriminate He. Qed.

(** Filter 7 points at stream 3, and the Stream table is empty. *)
Lemma post_unguarded_stream_witness :
  ∃ e : exn,
    e ∈ [AttributeError; TypeError; KeyError "collection"; KeyError "selector"]
    ∧ run (post db_no_stream alice remote_ok 7 {[ "pipeline" := pipeline0 ]})
      = ([], inl e).
Proof.
  apply (post_unguarded_stream db_no_stream alice remote_ok 7
           {[ "pipeline" := pipeline0 ]} filter7);
    [reflexivity | reflexivity | left; reflexivity].
Defined.

(** ** Further properties of the handlers *)

Section Further.

Variable repr : value → string.
Variable db : Database.
Variable current_user : User.
Variable kowalski : request → api_result.

#[local] Abbreviation get := (get db current_user kowalski).
#[local] Abbreviation post := (post db current_user kowalski).
#[local] Abbreviation patch := (patch repr db current_user kowalski).
#[local] Abbreviation delete := (delete db current_user kowalski).
#[local] Abbreviation query_filter := (query_filter db current_user).
#[local] Abbreviation query_stream := (query_stream db).
#[local] Abbreviation stream_ready := (stream_ready db).

Lemma calls_of_run {A : Type} (m : M A) (log : list request) (o : exn + A) :
  run m = (log, o) → calls m = log.
Proof. unfold calls. by intros ->. Qed.

(** *** The stream faults of [post], one by one *)

Lemma post_no_stream (filter_id : Z) (body : gmap string value) (f : Filter.t) :
  truthy (dict_get body "pipeline") = true →
  query_filter filter_id = Some f →
  query_stream (Filter.stream_id f) = None →
  run (post filter_id body) = ([], inl AttributeError).
Proof. intros Hp Hq Hs. unfold post. rewrite Hp, Hq. simpl. by rewrite Hs. Qed.

Lemma post_altdata_not_dict (filter_id : Z) (body : gmap string value)
    (f : Filter.t) (s : Stream.t) :
  truthy (dict_get body "pipeline") = true →
  query_filter filter_id = Some f →
  query_stream (Filter.stream_id f) = Some s →
  (∀ d, Stream.altdata s ≠ VDict d) →
  run (post filter_id body) = ([], inl TypeError).
Proof.
  intros Hp Hq Hs Ha. unfold post. rewrite Hp, Hq. simpl. rewrite Hs. simpl.
  rewrite M_bind_ret. destruct (Stream.altdata s); try done. by destruct (Ha d).
Qed.

Lemma post_no_collection (filter_id : Z) (body : gmap string value)
    (f : Filter.t) (s : Stream.t) (d : gmap string value) :
  truthy (dict_get body "pipeline") = true →
  query_filter filter_id = Some f →
  query_stream (Filter.stream_id f) = Some s →
  Stream.altdata s = VDict d →
  d !! "collection" = None →
  run (post filter_id body) = ([], inl (KeyError "collection")).
Proof.
  intros Hp Hq Hs Ha Hc. unfold post. rewrite Hp, Hq. simpl. rewrite Hs. simpl.
  rewrite M_bind_ret, Ha. simpl. by rewrite Hc.
Qed.

Lemma post_no_selector (filter_id : Z) (body : gmap string value)
    (f : Filter.t) (s : Stream.t) (d : gmap string value) (c : value) :
  truthy (dict_get body "pipeline") = true →
  query_filter filter_id = Some f →
  query_stream (Filter.stream_id f) = Some s →
  Stream.altdata s = VDict d →
  d !! "collection" = Some c →
  d !! "selector" = None →
  run (post filter_id body) = ([], inl (KeyError "selector")).
Proof.
  intros Hp Hq Hs Ha Hc Hsel. unfold post. rewrite Hp, Hq. simpl. rewrite Hs. simpl.
  rewrite M_bind_ret, Ha. simpl. rewrite Hc, !M_bind_ret. simpl. by rewrite Hsel.
Qed.

(** *** When a handler reaches the remote client, and with what *)

Lemma get_cases (filter_id : Z) :
  (query_filter filter_id = None ∧ calls (get filter_id) = [])
  ∨ (is_Some (query_filter filter_id)
     ∧ calls (get filter_id)
       = [ {| method := "get"; endpoint := "api/filters/" +:+ pretty filter_id;
              data := None |} ]).
Proof.
  destruct (query_filter filter_id) as [f|] eqn:Hq.
  - right. split; [done|].
    rewrite (get_filter _ _ _ _ f Hq). apply calls_api_relay.
  - left. split; [done|]. eapply calls_of_run. by apply get_no_filter.
Qed.

Lemma delete_cases (filter_id : Z) :
  (query_filter filter_id = None ∧ calls (delete filter_id) = [])
  ∨ (is_Some (query_filter filter_id)
     ∧ calls (delete filter_id)
       = [ {| method := "patch"; endpoint := "api/filters/" +:+ pretty filter_id;
              data := None |} ]).
Proof.
  destruct (query_filter filter_id) as [f|] eqn:Hq.
  - right. split; [done|].
    unfold delete, calls. rewrite Hq, run_kowalski_api. simpl.
    destruct (kowalski _) as [e|v]; [done|].
    destruct v; try done. unfold method_get.
    rewrite !M_bind_ret. by destruct (eq_str _ _).
  - left. split; [done|]. eapply calls_of_run. by apply delete_no_filter.
Qed.

Lemma patch_cases (filter_id : Z) (body : gmap string value) :
  (¬ (supplied_count body ≠ 4%nat ∧ is_Some (query_filter filter_id))
   ∧ calls (patch filter_id body) = [])
  ∨ ((supplied_count body ≠ 4%nat ∧ is_Some (query_filter filter_id))
     ∧ ∃ payload : gmap string value,
         payload !! "filter_id" = Some (VInt filter_id)
         ∧ calls (patch filter_id body)
           = [ {| method := "patch"; endpoint := "api/filters";
                  data := Some payload |} ]).
Proof.
  destruct (decide (supplied_count body = 4%nat)) as [Hc|Hc].
  - left. split; [by intros [? _]|].
    eapply calls_of_run. by apply patch_rejected.
  - destruct (query_filter filter_id) as [f|] eqn:Hq.
    + right. split; [done|].
      destruct (patch_filter repr db current_user kowalski _ _ f Hc Hq)
        as (payload & -> & Hid & _).
      exists payload. split; [done | apply calls_api_relay].
    + left. split; [by intros [_ [? ?]]|].
      eapply calls_of_run. by apply patch_no_filter.
Qed.

Lemma post_cases (filter_id : Z) (body : gmap string value) :
  (¬ (truthy (dict_get body "pipeline") = true
      ∧ ∃ f c p, query_filter filter_id = Some f ∧ stream_ready f c p)
   ∧ calls (post filter_id body) = [])
  ∨ ((truthy (dict_get body "pipeline") = true
      ∧ ∃ f c p, query_filter filter_id = Some f ∧ stream_ready f c p)
     ∧ ∃ payload : gmap string value,
         payload !! "filter_id" = Some (VInt filter_id)
         ∧ calls (post filter_id body)
           = [ {| method := "post"; endpoint := "api/filters";
                  data := Some payload |} ]).
Proof.
  clear repr.
  destruct (truthy (dict_get body "pipeline")) eqn:Hp.
  2:{ left. split; [by intros [? _]|].
      eapply calls_of_run. by apply post_falsy_pipeline. }
  destruct (query_filter filter_id) as [f|] eqn:Hq.
  2:{ left. split; [by intros (_ & ? & ? & ? & ? & _)|].
      eapply calls_of_run. by apply post_no_filter. }
  destruct (query_stream (Filter.stream_id f)) as [s|] eqn:Hs.
  2:{ left. split.
      - intros (_ & f' & c & p & [= <-] & s & d & Hs' & _). congruence.
      - eapply calls_of_run. by eapply post_no_stream. }
  destruct (Stream.altdata s) as [| | | | | |d] eqn:Ha;
    try (left; split;
         [ intros (_ & f' & c & p & [= <-] & s' & d & Hs' & Ha' & _); congruence
         | eapply calls_of_run; eapply post_altdata_not_dict; eauto;
           intros d; rewrite Ha; discriminate ]).
  destruct (d !! "collection") as [c|] eqn:Hc.
  2:{ left. split.
      - intros (_ & f' & c & p & [= <-] & s' & d' & Hs' & Ha' & Hc' & _).
        congruence.
      - eapply calls_of_run. by eapply post_no_collection. }
  destruct (d !! "selector") as [p|] eqn:Hsel.
  2:{ left. split.
      - intros (_ & f' & c' & p & [= <-] & s' & d' & Hs' & Ha' & _ & Hsel').
        congruence.
      - eapply calls_of_run. by eapply post_no_selector. }
  right.
  assert (stream_ready f c p) as Hready by (by exists s, d).
  split; [split; [done | by exists f, c, p]|].
  rewrite (post_filter _ _ _ _ _ f c p Hp Hq Hready).
  eexists. split; [|apply calls_api_relay]. by simplify_map_eq.
Qed.

(** X1.  Whatever the request, the database and the remote client do, a
    handler calls the remote client at most once. *)
Theorem at_most_one_remote_call (filter_id : Z) (post_body patch_body : gmap string value) :
  (length (calls (get filter_id)) ≤ 1)%nat
  ∧ (length (calls (post filter_id post_body)) ≤ 1)%nat
  ∧ (length (calls (patch filter_id patch_body)) ≤ 1)%nat
  ∧ (length (calls (delete filter_id)) ≤ 1)%nat.
Proof.
  split_and!.
  - destruct (get_cases filter_id) as [[_ ->] | [_ ->]]; simpl; lia.
  - destruct (post_cases filter_id post_body)
      as [[_ ->] | [_ (payload & _ & ->)]]; simpl; lia.
  - destruct (patch_cases filter_id patch_body)
      as [[_ ->] | [_ (payload & _ & ->)]]; simpl; lia.
  - destruct (delete_cases filter_id) as [[_ ->] | [_ ->]]; simpl; lia.
Qed.

(** X2.  When each handler reaches the remote client.  Fetch and
    Deactivate call it exactly when the lookup of the filter among the
    caller's groups finds a row; Update exactly when, besides, the body
    does not supply all four optional fields; Create exactly when the
    pipeline is non-empty, the lookup finds a row, and the stream of
    that row has an altdata object with both keys. *)
Theorem remote_called_iff (filter_id : Z) (body : gmap string value) :
  (calls (get filter_id) ≠ [] ↔ is_Some (query_filter filter_id))
  ∧ (calls (delete filter_id) ≠ [] ↔ is_Some (query_filter filter_id))
  ∧ (calls (patch filter_id body) ≠ []
     ↔ supplied_count body ≠ 4%nat ∧ is_Some (query_filter filter_id))
  ∧ (calls (post filter_id body) ≠ []
     ↔ truthy (dict_get body "pipeline") = true
       ∧ ∃ f c p, query_filter filter_id = Some f ∧ stream_ready f c p).
Proof.
  split_and!.
  - destruct (get_cases filter_id) as [[Hq ->] | [Hq ->]].
    + rewrite Hq. split; [done | by intros [? ?]].
    + split; [done | discriminate].
  - destruct (delete_cases filter_id) as [[Hq ->] | [Hq ->]].
    + rewrite Hq. split; [done | by intros [? ?]].
    + split; [done | discriminate].
  - destruct (patch_cases filter_id body) as [[Hn ->] | [Hy (payload & _ & ->)]].
    + split; [done | by intros ?].
    + split; [done | discriminate].
  - destruct (post_cases filter_id body) as [[Hn ->] | [Hy (payload & _ & ->)]].
    + split; [done | by intros ?].
    + split; [done | discriminate].
Qed.

(** X3.  What the handlers send.  Every call of Fetch is a GET to
    api/filters/{filter_id} without data; every call of Deactivate is a
    PATCH (not a DELETE) to the same endpoint without data; every call
    of Create is a POST, and every call of Update a PATCH, to api/filters
    with a payload whose filter_id is the path parameter. *)
Theorem remote_call_shape (filter_id : Z) (body : gmap string value) :
  Forall (λ req, req = {| method := "get";
                          endpoint := "api/filters/" +:+ pretty filter_id;
                          data := None |})
         (calls (get filter_id))
  ∧ Forall (λ req, req = {| method := "patch";
                            endpoint := "api/filters/" +:+ pretty filter_id;
                            data := None |})
           (calls (delete filter_id))
  ∧ Forall (λ req, method req = "post" ∧ endpoint req = "api/filters"
                   ∧ ∃ payload, data req = Some payload
                                ∧ payload !! "filter_id" = Some (VInt filter_id))
           (calls (post filter_id body))
  ∧ Forall (λ req, method req = "patch" ∧ endpoint req = "api/filters"
                   ∧ ∃ payload, data req = Some payload
                                ∧ payload !! "filter_id" = Some (VInt filter_id))
           (calls (patch filter_id body)).
Proof.
  split_and!.
  - destruct (get_cases filter_id) as [[_ ->] | [_ ->]]; by repeat constructor.
  - destruct (delete_cases filter_id) as [[_ ->] | [_ ->]]; by repeat constructor.
  - destruct (post_cases filter_id body) as [[_ ->] | [_ (payload & Hid & ->)]];
      [constructor|].
    repeat constructor. by exists payload.
  - destruct (patch_cases filter_id body) as [[_ ->] | [_ (payload & Hid & ->)]];
      [constructor|].
    repeat constructor. by exists payload.
Qed.

(** X4.  The lookup of the filter finds a row exactly when the Filter
    table holds a row with the requested identifier whose group is one
    of the caller's accessible groups, and the row it returns is such a
    row. *)
Theorem query_filter_is_Some_iff (filter_id : Z) :
  (is_Some (query_filter filter_id)
   ↔ ∃ f, f ∈ filters db ∧ Filter.id f = filter_id
          ∧ Filter.group_id f ∈ accessible_group_ids current_user)
  ∧ ∀ f, query_filter filter_id = Some f →
         f ∈ filters db ∧ Filter.id f = filter_id
         ∧ Filter.group_id f ∈ accessible_group_ids current_user.
Proof.
  split; [|intros f; apply query_filter_Some].
  split.
  - intros [f Hq]. exists f. by apply query_filter_Some.
  - intros (f & Hin & Hid & Hgrp).
    destruct (query_filter filter_id) as [f'|] eqn:Hq; [done|].
    apply query_filter_None in Hq. by destruct (Hq f Hin Hid).
Qed.

(** *** The answer of the remote client, relayed *)

Lemma outcome_api_relay_dict (m e : string) (d : option (gmap string value))
    (r : gmap string value) :
  kowalski {| method := m; endpoint := e; data := d |} = Returns (VDict r) →
  ∃ reply : envelope,
    outcome (kowalski_api kowalski m e d ≫= relay) = inr reply
    ∧ (r !! "status" = Some (VStr "success") →
       env_status reply = "success" ∧ env_data reply = Some (dict_get r "data"))
    ∧ (r !! "status" ≠ Some (VStr "success") →
       env_status reply = "error"
       ∧ env_message reply = Some (dict_get r "message")
       ∧ env_data reply = None).
Proof.
  intros Hk. unfold outcome. rewrite run_kowalski_api. simpl.
  rewrite Hk, relay_dict. simpl.
  eexists. split; [reflexivity|].
  destruct (eq_str (dict_get r "status") "success") eqn:Hs.
  - split; [done|]. intros Hne. destruct Hne.
    apply eq_str_true in Hs. unfold dict_get in Hs.
    destruct (r !! "status"); simpl in Hs; [by rewrite Hs | done].
  - split; [|done]. intros Hst. unfold dict_get in Hs. by rewrite Hst in Hs.
Qed.

(** X5.  Create relays the answer of the remote API as Fetch does.  For
    an authorized request with a non-empty pipeline, on a filter whose
    stream has both keys, when the remote API answers POST with a JSON
    object: status "success" gives a success envelope with the data of
    the answer; any other status, or none, gives an error envelope with
    the message of the answer and no data. *)
Theorem post_relays (filter_id : Z) (body : gmap string value) (f : Filter.t)
    (catalog permissions : value) (r : gmap string value) :
  truthy (dict_get body "pipeline") = true →
  query_filter filter_id = Some f →
  stream_ready f catalog permissions →
  (∀ req, method req = "post" → kowalski req = Returns (VDict r)) →
  ∃ reply : envelope,
    outcome (post filter_id body) = inr reply
    ∧ (r !! "status" = Some (VStr "success") →
       env_status reply = "success" ∧ env_data reply = Some (dict_get r "data"))
    ∧ (r !! "status" ≠ Some (VStr "success") →
       env_status reply = "error"
       ∧ env_message reply = Some (dict_get r "message")
       ∧ env_data reply = None).
Proof.
  clear repr. intros Hp Hq Hs Hk.
  rewrite (post_filter _ _ _ _ _ f catalog permissions Hp Hq Hs).
  apply outcome_api_relay_dict. by apply Hk.
Qed.

(** X6.  Update relays the answer of the remote API as Fetch does.  For
    an authorized request that the presence test lets through, when the
    remote API answers PATCH with a JSON object: status "success" gives a
    success envelope with the data of the answer; any other status, or
    none, gives an error envelope with the message of the answer and no
    data. *)
Theorem patch_relays (filter_id : Z) (body : gmap string value) (f : Filter.t)
    (r : gmap string value) :
  query_filter filter_id = Some f →
  (count_None [dict_get body "active"; dict_get body "active_fid";
               dict_get body "autosave"; dict_get body "update_annotations"] <? 1)%nat
  = false →
  (∀ req, method req = "patch" → kowalski req = Returns (VDict r)) →
  ∃ reply : envelope,
    outcome (patch filter_id body) = inr reply
    ∧ (r !! "status" = Some (VStr "success") →
       env_status reply = "success" ∧ env_data reply = Some (dict_get r "data"))
    ∧ (r !! "status" ≠ Some (VStr "success") →
       env_status reply = "error"
       ∧ env_message reply = Some (dict_get r "message")
       ∧ env_data reply = None).
Proof.
  intros Hq Htest Hk. rewrite patch_test in Htest.
  apply bool_decide_eq_false in Htest.
  destruct (patch_filter repr _ _ kowalski _ _ f Htest Hq) as (payload & -> & _).
  apply outcome_api_relay_dict. by apply Hk.
Qed.

(** X7.  A body that supplies all four optional fields is refused by
    Update: the reply is the error envelope "At least one of (active,
    active_fid, autosave, update_annotations) must be set" and no remote
    call is made, whether or not the caller can access the filter. *)
Theorem patch_all_supplied_rejected (filter_id : Z) (body : gmap string value) :
  Forall (λ k, is_Some (supplied body k)) optional_fields →
  run (patch filter_id body) = ([], inr (error (VStr
    "At least one of (active, active_fid, autosave, update_annotations) must be set"))).
Proof.
  intros Hall. apply patch_rejected.
  unfold optional_fields in Hall.
  apply Forall_cons in Hall as [H1 Hall]. apply Forall_cons in Hall as [H2 Hall].
  apply Forall_cons in Hall as [H3 Hall]. apply Forall_cons in Hall as [H4 _].
  unfold supplied_count, optional_fields.
  by rewrite !filter_cons_True by done.
Qed.

(** X8.  The exceptions Create lets escape when the stream cannot serve
    it, for an authorized request with a non-empty pipeline: no stream
    row gives AttributeError; an altdata that is not an object (a null
    column, say) gives TypeError; an altdata object without "collection"
    gives KeyError "collection", whether or not it has "selector"; one
    with "collection" and without "selector" gives KeyError "selector".
    In each case no remote call is made. *)
Theorem post_stream_faults (filter_id : Z) (body : gmap string value) (f : Filter.t) :
  truthy (dict_get body "pipeline") = true →
  query_filter filter_id = Some f →
  (query_stream (Filter.stream_id f) = None →
   run (post filter_id body) = ([], inl AttributeError))
  ∧ (∀ s, query_stream (Filter.stream_id f) = Some s →
          (∀ d, Stream.altdata s ≠ VDict d) →
          run (post filter_id body) = ([], inl TypeError))
  ∧ (∀ s d, query_stream (Filter.stream_id f) = Some s →
            Stream.altdata s = VDict d →
            d !! "collection" = None →
            run (post filter_id body) = ([], inl (KeyError "collection")))
  ∧ (∀ s d, query_stream (Filter.stream_id f) = Some s →
            Stream.altdata s = VDict d →
            is_Some (d !! "collection") →
            d !! "selector" = None →
            run (post filter_id body) = ([], inl (KeyError "selector"))).
Proof.
  clear repr. intros Hp Hq. split_and!.
  - by apply post_no_stream.
  - intros s. by apply post_altdata_not_dict.
  - intros s d. by apply post_no_collection.
  - intros s d Hs Ha [c Hc]. by apply (post_no_selector _ _ f s d c).
Qed.

(** *** What of the body the handlers read *)

Lemma post_ext (filter_id : Z) (body body' : gmap string value) :
  dict_get body "pipeline" = dict_get body' "pipeline" →
  post filter_id body = post filter_id body'.
Proof. intros H. unfold post. by rewrite H. Qed.

Lemma patch_ext (filter_id : Z) (body body' : gmap string value) :
  Forall (λ k, dict_get body k = dict_get body' k) optional_fields →
  patch filter_id body = patch filter_id body'.
Proof.
  intros H. unfold optional_fields in H.
  apply Forall_cons in H as [H1 H]. apply Forall_cons in H as [H2 H].
  apply Forall_cons in H as [H3 H]. apply Forall_cons in H as [H4 _].
  unfold patch. by rewrite H1, H2, H3, H4.
Qed.

Lemma dict_get_insert_None (body : gmap string value) (k k' : string) :
  body !! k = None → dict_get (<[k := VNone]> body) k' = dict_get body k'.
Proof.
  intros Hk. unfold dict_get. destruct (decide (k = k')) as [<-|Hne].
  - by rewrite lookup_insert_eq, Hk.
  - by rewrite lookup_insert_ne.
Qed.

(** X9.  Create reads nothing of the body but the pipeline: two bodies
    with the same pipeline get the same remote call and the same reply.
    A caller cannot set group_id, filter_id, catalog or permissions of
    the payload through the body. *)
Theorem post_reads_pipeline_only (filter_id : Z) (body body' : gmap string value) :
  dict_get body "pipeline" = dict_get body' "pipeline" →
  run (post filter_id body) = run (post filter_id body').
Proof. intros H. by rewrite (post_ext _ _ _ H). Qed.

(** X10.  Update reads nothing of the body but the four optional fields:
    two bodies that agree on them get the same remote call and the same
    reply.  A filter_id in the body is ignored. *)
Theorem patch_reads_optional_fields_only (filter_id : Z)
    (body body' : gmap string value) :
  Forall (λ k, dict_get body k = dict_get body' k) optional_fields →
  run (patch filter_id body) = run (patch filter_id body').
Proof. intros H. by rewrite (patch_ext _ _ _ H). Qed.

(** X11.  A field that holds JSON null reads as a missing field: adding
    a key with value null to a body without that key changes neither the
    remote call nor the reply of Create or Update. *)
Theorem null_field_reads_as_absent (filter_id : Z) (body : gmap string value)
    (k : string) :
  body !! k = None →
  run (post filter_id (<[k := VNone]> body)) = run (post filter_id body)
  ∧ run (patch filter_id (<[k := VNone]> body)) = run (patch filter_id body).
Proof.
  intros Hk. split.
  - rewrite (post_ext filter_id (<[k := VNone]> body) body); [done|].
    by apply dict_get_insert_None.
  - rewrite (patch_ext filter_id (<[k := VNone]> body) body); [done|].
    apply Forall_forall. intros k' _. by apply dict_get_insert_None.
Qed.

(** X12.  Update does not check the version token: for an authorized
    request that the presence test lets through, an active_fid given as
    a string goes into the payload as it is, whatever its length (the
    empty string included). *)
Theorem patch_forwards_any_active_fid (filter_id : Z) (body : gmap string value)
    (f : Filter.t) (fid : string) :
  query_filter filter_id = Some f →
  supplied_count body ≠ 4%nat →
  body !! "active_fid" = Some (VStr fid) →
  ∃ payload : gmap string value,
    calls (patch filter_id body)
    = [ {| method := "patch"; endpoint := "api/filters"; data := Some payload |} ]
    ∧ payload !! "active_fid" = Some (VStr fid).
Proof.
  intros Hq Hc Hfid.
  destruct (patch_filter repr _ _ kowalski _ _ f Hc Hq)
    as (payload & -> & _ & _ & Hpayload & _).
  exists payload. split; [apply calls_api_relay|].
  rewrite Hpayload. unfold supplied. by rewrite Hfid.
Qed.

End Further.

(** ** The further properties at concrete requests *)

(** The example of the spec: Alice creates a version of filter 7 and the
    remote accepts it. *)
Lemma post_relays_witness :
  ∃ reply : envelope,
    outcome (post db0 alice remote_ok 7 {[ "pipeline" := pipeline0 ]}) = inr reply
    ∧ env_status reply = "success"
    ∧ env_data reply = Some (VDict {[ "fid" := VStr "abc123" ]}).
Proof.
  destruct (post_relays db0 alice remote_ok 7 {[ "pipeline" := pipeline0 ]} filter7
              (VStr "ZTF_alerts") (VList [VInt 1; VInt 2]) answer_ok)
    as (reply & Hout & Hok & _);
    [reflexivity | reflexivity | exact stream3_ready | intros; reflexivity |].
  exists reply. split; [exact Hout | by apply Hok].
Defined.

Lemma patch_relays_witness :
  ∃ reply : envelope,
    outcome (patch repr0 db0 alice remote_error 7 {[ "autosave" := VBool true ]})
    = inr reply
    ∧ env_status reply = "error"
    ∧ env_message reply = Some (VStr "not found")
    ∧ env_data reply = None.
Proof.
  destruct (patch_relays repr0 db0 alice remote_error 7 {[ "autosave" := VBool true ]}
              filter7 answer_error)
    as (reply & Hout & _ & Herr);
    [reflexivity | reflexivity | intros; reflexivity |].
  exists reply. split; [exact Hout | by apply Herr].
Defined.

Lemma patch_all_supplied_rejected_witness :
  run (patch repr0 db0 alice remote_ok 7 body_all_four)
  = ([], inr (error (VStr
      "At least one of (active, active_fid, autosave, update_annotations) must be set"))).
Proof.
  apply (patch_all_supplied_rejected repr0 db0 alice remote_ok 7 body_all_four).
  repeat constructor; by eexists.
Defined.

(** No stream row; a null altdata column; an altdata without selector. *)
Lemma post_stream_faults_witness :
  run (post db_no_stream alice remote_ok 7 {[ "pipeline" := pipeline0 ]})
  = ([], inl AttributeError)
  ∧ run (post db_null_altdata alice remote_ok 7 {[ "pipeline" := pipeline0 ]})
    = ([], inl TypeError)
  ∧ run (post db_no_selector alice remote_ok 7 {[ "pipeline" := pipeline0 ]})
    = ([], inl (KeyError "selector")).
Proof.
  split_and!.
  - destruct (post_stream_faults db_no_stream alice remote_ok 7
                {[ "pipeline" := pipeline0 ]} filter7) as (H & _);
      [reflexivity | reflexivity |].
    by apply H.
  - destruct (post_stream_faults db_null_altdata alice remote_ok 7
                {[ "pipeline" := pipeline0 ]} filter7) as (_ & H & _);
      [reflexivity | reflexivity |].
    by apply (H {| Stream.id := 3; Stream.altdata := VNone |}).
  - destruct (post_stream_faults db_no_selector alice remote_ok 7
                {[ "pipeline" := pipeline0 ]} filter7) as (_ & _ & _ & H);
      [reflexivity | reflexivity |].
    apply (H {| Stream.id := 3;
                Stream.altdata := VDict {[ "collection" := VStr "ZTF_alerts" ]} |}
             {[ "collection" := VStr "ZTF_alerts" ]});
      [reflexivity | reflexivity | by eexists | reflexivity].
Defined.

(** A group_id slipped into the body of Create changes nothing. *)
Lemma post_reads_pipeline_only_witness :
  run (post db0 alice remote_ok 7
         {[ "pipeline" := pipeline0; "group_id" := VInt 99 ]})
  = run (post db0 alice remote_ok 7 {[ "pipeline" := pipeline0 ]}).
Proof.
  apply (post_reads_pipeline_only db0 alice remote_ok 7
           {[ "pipeline" := pipeline0; "group_id" := VInt 99 ]}
           {[ "pipeline" := pipeline0 ]}).
  reflexivity.
Defined.

(** A filter_id in the body of Update changes nothing. *)
Lemma patch_reads_optional_fields_only_witness :
  run (patch repr0 db0 alice remote_ok 7
         {[ "active" := VBool true; "filter_id" := VInt 99 ]})
  = run (patch repr0 db0 alice remote_ok 7 {[ "active" := VBool true ]}).
Proof.
  apply (patch_reads_optional_fields_only repr0 db0 alice remote_ok 7
           {[ "active" := VBool true; "filter_id" := VInt 99 ]}
           {[ "active" := VBool true ]}).
  repeat constructor.
Defined.

Lemma null_field_reads_as_absent_witness :
  run (post db0 alice remote_ok 7 (<["pipeline" := VNone]> ∅))
  = run (post db0 alice remote_ok 7 ∅)
  ∧ run (patch repr0 db0 alice remote_ok 7 (<["pipeline" := VNone]> ∅))
    = run (patch repr0 db0 alice remote_ok 7 ∅).
Proof.
  apply (null_field_reads_as_absent repr0 db0 alice remote_ok 7 ∅ "pipeline").
  reflexivity.
Defined.

(** An empty version token is sent on. *)
Lemma patch_forwards_any_active_fid_witness :
  ∃ payload : gmap string value,
    calls (patch repr0 db0 alice remote_ok 7 {[ "active_fid" := VStr "" ]})
    = [ {| method := "patch"; endpoint := "api/filters"; data := Some payload |} ]
    ∧ payload !! "active_fid" = Some (VStr "").
Proof.
  apply (patch_forwards_any_active_fid repr0 db0 alice remote_ok 7
           {[ "active_fid" := VStr "" ]} filter7 "").
  - reflexivity.
  - vm_compute. lia.
  - reflexivity.
Defined.
